(** * ulog: notes, tag parsing and note blocks

    A shallow embedding of [main.py].  The module is dynamically typed and
    most of what the specification says about it hinges on what Python does
    at run time (assertions on argument types, attribute lookup, name
    lookup), so the embedding keeps a small universe of Python values, the
    instance dictionary of every object, and the exceptions the
    interpreter raises. *)

From Stdlib Require Import String Ascii List ZArith Lia Bool.
Import ListNotations.
Local Open Scope string_scope.
Local Open Scope Z_scope.
Set Warnings "-register-all".

(** ** Regular expressions (the fragment of [re] the module relies on) *)

Module Re.

(** Abstract syntax of a compiled pattern.  Capturing groups carry their
    number (1-based, in order of their opening parenthesis). *)
Inductive regex : Type :=
| REmpty
| RChar (c : ascii)
| RAny
| RSet (negated : bool) (ranges : list (ascii * ascii))
| RBol
| REol
| RSeq (r1 r2 : regex)
| RAlt (r1 r2 : regex)
| RStar (r : regex)
| RPlus (r : regex)
| ROpt (r : regex)
| RGroup (n : nat) (r : regex).

(** A match object: where the match ends and what each group captured. *)
Record match_obj : Type := MatchObj {
  mo_end : nat;
  mo_groups : list (nat * string)
}.

(** *** Compilation: a recursive-descent parser of the pattern text.

    Covered: literals, [.], [^], [$], [|], [( )], [(?: )], bracket sets
    with ranges, the escapes [\d \s \w] and the greedy quantifiers
    [* + ?].  Anything else is rejected. *)

Definition digit_ranges : list (ascii * ascii) := [("0", "9")]%char.
Definition space_ranges : list (ascii * ascii) :=
  [(" ", " "); ("009", "013")]%char.
Definition word_ranges : list (ascii * ascii) :=
  [("a", "z"); ("A", "Z"); ("0", "9"); ("_", "_")]%char.

Definition in_ranges (c : ascii) (rs : list (ascii * ascii)) : bool :=
  existsb (fun r => (nat_of_ascii (fst r) <=? nat_of_ascii c)%nat
                    && (nat_of_ascii c <=? nat_of_ascii (snd r))%nat) rs.

Definition escape_ranges (c : ascii) : list (ascii * ascii) :=
  if Ascii.eqb c "d" then digit_ranges
  else if Ascii.eqb c "s" then space_ranges
  else if Ascii.eqb c "w" then word_ranges
  else [(c, c)].

Fixpoint parse_set (s : list ascii) (acc : list (ascii * ascii))
  : option (list (ascii * ascii) * list ascii) :=
  match s with
  | [] => None
  | c :: rest =>
      if Ascii.eqb c "]" then Some (rev acc, rest)
      else if Ascii.eqb c "\" then
        match rest with
        | e :: rest' => parse_set rest' (rev (escape_ranges e) ++ acc)
        | [] => None
        end
      else
        match rest with
        | dash :: hi :: rest' =>
            if Ascii.eqb dash "-" && negb (Ascii.eqb hi "]")
            then parse_set rest' ((c, hi) :: acc)
            else parse_set rest ((c, c) :: acc)
        | _ => parse_set rest ((c, c) :: acc)
        end
  end.

Definition seq (r1 r2 : regex) : regex :=
  match r2 with
  | REmpty => r1
  | _ => RSeq r1 r2
  end.

(** A quantifier following an atom, if any. *)
Definition quantified (a : regex) (s : list ascii) : regex * list ascii :=
  match s with
  | q :: rest =>
      if Ascii.eqb q "*" then (RStar a, rest)
      else if Ascii.eqb q "+" then (RPlus a, rest)
      else if Ascii.eqb q "?" then (ROpt a, rest)
      else (a, s)
  | [] => (a, s)
  end.

Definition is_meta (c : ascii) : bool :=
  existsb (Ascii.eqb c) ["*"; "+"; "?"; "{"; "}"]%char.

Fixpoint parse_alt (fuel : nat) (g : nat) (s : list ascii) {struct fuel}
  : option (regex * nat * list ascii) :=
  match fuel with
  | O => None
  | S f =>
      match parse_seq f g s with
      | Some (r1, g1, rest) =>
          match rest with
          | c :: rest' =>
              if Ascii.eqb c "|" then
                match parse_alt f g1 rest' with
                | Some (r2, g2, rest2) => Some (RAlt r1 r2, g2, rest2)
                | None => None
                end
              else Some (r1, g1, rest)
          | [] => Some (r1, g1, rest)
          end
      | None => None
      end
  end
with parse_seq (fuel : nat) (g : nat) (s : list ascii) {struct fuel}
  : option (regex * nat * list ascii) :=
  match fuel with
  | O => None
  | S f =>
      match s with
      | [] => Some (REmpty, g, s)
      | c :: _ =>
          if Ascii.eqb c "|" || Ascii.eqb c ")" then Some (REmpty, g, s)
          else
            match parse_atom f g s with
            | Some (a, g1, rest) =>
                let (a', rest') := quantified a rest in
                match parse_seq f g1 rest' with
                | Some (r, g2, rest2) => Some (seq a' r, g2, rest2)
                | None => None
                end
            | None => None
            end
      end
  end
with parse_atom (fuel : nat) (g : nat) (s : list ascii) {struct fuel}
  : option (regex * nat * list ascii) :=
  match fuel with
  | O => None
  | S f =>
      match s with
      | [] => None
      | c :: rest =>
          if Ascii.eqb c "(" then
            match rest with
            | "?"%char :: ":"%char :: rest' =>
                match parse_alt f g rest' with
                | Some (r, g1, ")"%char :: rest1) => Some (r, g1, rest1)
                | _ => None
                end
            | "?"%char :: _ => None
            | _ =>
                match parse_alt f (S g) rest with
                | Some (r, g1, ")"%char :: rest1) =>
                    Some (RGroup (S g) r, g1, rest1)
                | _ => None
                end
            end
          else if Ascii.eqb c "[" then
            match rest with
            | "^"%char :: rest' =>
                match parse_set rest' [] with
                | Some (rs, rest1) => Some (RSet true rs, g, rest1)
                | None => None
                end
            | _ =>
                match parse_set rest [] with
                | Some (rs, rest1) => Some (RSet false rs, g, rest1)
                | None => None
                end
            end
          else if Ascii.eqb c "^" then Some (RBol, g, rest)
          else if Ascii.eqb c "$" then Some (REol, g, rest)
          else if Ascii.eqb c "." then Some (RAny, g, rest)
          else if Ascii.eqb c "\" then
            match rest with
            | e :: rest' =>
                if existsb (Ascii.eqb e) ["d"; "s"; "w"]%char
                then Some (RSet false (escape_ranges e), g, rest')
                else if negb (in_ranges e word_ranges)
                then Some (RChar e, g, rest')
                else None
            | [] => None
            end
          else if is_meta c then None
          else Some (RChar c, g, rest)
      end
  end.

(** [re.compile(pattern)]; [None] stands for a rejected pattern. *)
Definition compile (pattern : string) : option regex :=
  let s := list_ascii_of_string pattern in
  match parse_alt (4 * List.length s + 4) 0 s with
  | Some (r, _, []) => Some r
  | _ => None
  end.

(** *** Matching: a backtracking matcher with greedy repetition. *)

Definition newline : ascii := "010"%char.

Definition capture (n : nat) (len : nat) (inp : list ascii)
           (caps : list (nat * string)) : list (nat * string) :=
  (n, string_of_list_ascii (firstn len inp))
    :: filter (fun c => negb (Nat.eqb (fst c) n)) caps.

Section Run.
Variable A : Type.

(** [run r pos inp caps k]: match [r] against [inp], the part of the
    subject that starts at offset [pos]; [k] continues with what is
    left.  Alternatives are tried in order. *)
Fixpoint run (r : regex) (pos : nat) (inp : list ascii)
         (caps : list (nat * string))
         (k : nat -> list ascii -> list (nat * string) -> option A)
         {struct r} : option A :=
  let star (r' : regex)
           (body : nat -> list ascii -> list (nat * string) ->
                   (nat -> list ascii -> list (nat * string) -> option A)
                   -> option A) :=
    fix loop (n : nat) (pos : nat) (inp : list ascii)
             (caps : list (nat * string)) {struct n} : option A :=
      match n with
      | O => k pos inp caps
      | S n' =>
          match body pos inp caps
                     (fun p i c => if Nat.eqb p pos then None
                                   else loop n' p i c) with
          | Some a => Some a
          | None => k pos inp caps
          end
      end in
  match r with
  | REmpty => k pos inp caps
  | RChar c =>
      match inp with
      | x :: inp' => if Ascii.eqb x c then k (S pos) inp' caps else None
      | [] => None
      end
  | RAny =>
      match inp with
      | x :: inp' => if Ascii.eqb x newline then None else k (S pos) inp' caps
      | [] => None
      end
  | RSet negated rs =>
      match inp with
      | x :: inp' =>
          if xorb negated (in_ranges x rs) then k (S pos) inp' caps else None
      | [] => None
      end
  | RBol => if Nat.eqb pos 0 then k pos inp caps else None
  | REol =>
      match inp with
      | [] => k pos inp caps
      | [x] => if Ascii.eqb x newline then k pos inp caps else None
      | _ => None
      end
  | RSeq r1 r2 =>
      run r1 pos inp caps (fun p i c => run r2 p i c k)
  | RAlt r1 r2 =>
      match run r1 pos inp caps k with
      | Some a => Some a
      | None => run r2 pos inp caps k
      end
  | RStar r' =>
      star r' (run r') (S (List.length inp)) pos inp caps
  | RPlus r' =>
      run r' pos inp caps
          (fun p i c => star r' (run r') (S (List.length i)) p i c)
  | ROpt r' =>
      match run r' pos inp caps k with
      | Some a => Some a
      | None => k pos inp caps
      end
  | RGroup n r' =>
      run r' pos inp caps
          (fun p i c => k p i (capture n (p - pos) inp c))
  end.
End Run.

(** [pattern.match(text)]: a match must start at the beginning of
    [text]; it need not reach its end. *)
Definition rmatch (r : regex) (text : string) : option match_obj :=
  run match_obj r 0%nat (list_ascii_of_string text) []
      (fun p _ c => Some (MatchObj p c)).

End Re.

(** ** Python values, exceptions and results *)

Inductive cls : Type :=
| Cls_Note | Cls_TaggedNote | Cls_NoteParser | Cls_NoteWriter
| Cls_NoteBlock | Cls_NoteCompiler | Cls_Backend.

Inductive val : Type :=
| VNone
| VBool (b : bool)
| VInt (n : Z)
| VStr (s : string)
| VList (items : list val)
| VTuple (items : list val)
| VDict (entries : list (string * val))
| VRegex (r : Re.regex)
| VMatch (m : Re.match_obj)
| VObj (c : cls) (dict : list (string * val))
| VMethod (self : val) (name : string)
| VGlobal (name : string).

(** The instance dictionary [__dict__] of an object, in insertion order. *)
Definition attrs : Type := list (string * val).

Inductive exn : Type :=
| AssertionError (msg : string)
| AttributeError (name : string)
| NameError (name : string)
| UnboundLocalError (name : string)
| TypeError (msg : string)
| ValueError (msg : string)
| ReError (msg : string)
| Raised (exception_class : string) (msg : string)
| NotModelled (what : string).

Inductive result (A : Type) : Type :=
| Ok (a : A)
| Raise (e : exn).
Arguments Ok {A} a.
Arguments Raise {A} e.

Definition rbind {A B : Type} (m : result A) (k : A -> result B) : result B :=
  match m with
  | Ok a => k a
  | Raise e => Raise e
  end.

(** Methods that assign to [self]: the instance dictionary is threaded
    through, and an exception leaves it as it was when raised. *)
Definition M (A : Type) : Type := attrs -> result A * attrs.

Definition ret {A : Type} (a : A) : M A := fun d => (Ok a, d).
Definition throw {A : Type} (e : exn) : M A := fun d => (Raise e, d).
Definition bind {A B : Type} (m : M A) (k : A -> M B) : M B :=
  fun d => match m d with
           | (Ok a, d') => k a d'
           | (Raise e, d') => (Raise e, d')
           end.
Definition lift {A : Type} (r : result A) : M A := fun d => (r, d).

Declare Scope py_scope.
Delimit Scope py_scope with py.
Notation "x <- m ;; k" := (bind m (fun x => k))
  (at level 100, m at next level, right associativity) : py_scope.
Notation "m ;; k" := (bind m (fun _ => k))
  (at level 100, right associativity) : py_scope.
Notation "x <~ m ;; k" := (rbind m (fun x => k))
  (at level 100, m at next level, right associativity) : py_scope.

(** [assert cond, msg] *)
Definition py_assert (cond : bool) (msg : string) : M unit :=
  if cond then ret tt else throw (AssertionError msg).

(** *** Built-in operations *)

Fixpoint assoc {A : Type} (k : string) (l : list (string * A)) : option A :=
  match l with
  | [] => None
  | (k', v) :: l' => if String.eqb k k' then Some v else assoc k l'
  end.

(** Assignment into a dictionary: an existing key keeps its position. *)
Fixpoint update {A : Type} (k : string) (v : A) (l : list (string * A))
  : list (string * A) :=
  match l with
  | [] => [(k, v)]
  | (k', v') :: l' =>
      if String.eqb k k' then (k, v) :: l' else (k', v') :: update k v l'
  end.

(** [isinstance(v, str)], [isinstance(v, list)], [isinstance(v, dict)] *)
Definition is_str (v : val) : bool :=
  match v with VStr _ => true | _ => false end.
Definition is_list (v : val) : bool :=
  match v with VList _ => true | _ => false end.
Definition is_dict (v : val) : bool :=
  match v with VDict _ => true | _ => false end.

(** Truth value of an object, as [not], [or] and [if] test it.  The
    module's classes define neither [__bool__] nor [__len__], so their
    instances are true. *)
Definition truthy (v : val) : bool :=
  match v with
  | VNone => false
  | VBool b => b
  | VInt n => negb (n =? 0)
  | VStr s => negb (String.eqb s "")
  | VList l => match l with [] => false | _ => true end
  | VTuple l => match l with [] => false | _ => true end
  | VDict d => match d with [] => false | _ => true end
  | VRegex _ | VMatch _ | VObj _ _ | VMethod _ _ | VGlobal _ => true
  end.

(** [a or b] *)
Definition py_or (a b : val) : val := if truthy a then a else b.

(** [d.get(key)] on a dictionary: [None] when the key is absent. *)
Definition dict_get (d : val) (key : string) : result val :=
  match d with
  | VDict entries =>
      match assoc key entries with Some v => Ok v | None => Ok VNone end
  | _ => Raise (AttributeError "get")
  end.

(** *** Classes, attribute lookup *)

(** The plain methods a class defines itself. *)
Definition own_methods (c : cls) : list string :=
  match c with
  | Cls_Note => ["__init__"; "__repr__"]
  | Cls_TaggedNote => ["__init__"; "parse_tagged_note"]
  | Cls_NoteParser => ["__init__"; "parse_tags"; "note_is_tagged"]
  | Cls_NoteWriter => ["__init__"; "_get_tags_dict"; "to_dict"; "to_csv"]
  | Cls_NoteBlock => ["__init__"; "_add_note_to_block"; "add_notes_to_block"]
  | Cls_NoteCompiler => ["__init__"]
  | Cls_Backend => []
  end.

(** [class TaggedNote(Note)] is the only subclass. *)
Definition base (c : cls) : option cls :=
  match c with
  | Cls_TaggedNote => Some Cls_Note
  | _ => None
  end.

Definition mem (s : string) (l : list string) : bool :=
  existsb (String.eqb s) l.

(** What every class inherits from [object], as far as the module uses it. *)
Definition object_methods : list string := ["__init__"; "__repr__"].

Definition has_method (c : cls) (name : string) : bool :=
  mem name (own_methods c)
  || match base c with
     | Some b => mem name (own_methods b)
     | None => false
     end
  || mem name object_methods.

(** [isinstance(v, Note)] *)
Definition is_Note (v : val) : bool :=
  match v with
  | VObj Cls_Note _ | VObj Cls_TaggedNote _ => true
  | _ => false
  end.

(** [a + b] for the values of this universe.  Instances of the module's
    classes define no [__add__] or [__radd__]. *)
Definition py_add (a b : val) : result val :=
  match a, b with
  | VInt x, VInt y => Ok (VInt (x + y))
  | VInt x, VBool y => Ok (VInt (x + Z.b2z y))
  | VBool x, VInt y => Ok (VInt (Z.b2z x + y))
  | VBool x, VBool y => Ok (VInt (Z.b2z x + Z.b2z y))
  | VStr x, VStr y => Ok (VStr (x ++ y))
  | VList x, VList y => Ok (VList (x ++ y))
  | VTuple x, VTuple y => Ok (VTuple (x ++ y))
  | _, _ => Raise (TypeError "unsupported operand type(s) for +")
  end.

(** [n <= b] for an integer [n]: only numbers compare with a number. *)
Definition py_int_le (n : Z) (b : val) : result bool :=
  match b with
  | VInt y => Ok (n <=? y)
  | VBool y => Ok (n <=? Z.b2z y)
  | _ => Raise (TypeError "'<=' not supported between these instances")
  end.

(** [a + n] for an integer [n]: the sum is an integer or a [TypeError]. *)
Definition py_add_int (a : val) (n : Z) : result Z :=
  match a with
  | VInt x => Ok (x + n)
  | VBool x => Ok (Z.b2z x + n)
  | _ => Raise (TypeError "unsupported operand type(s) for +")
  end.

(** A [str] is held as the bytes of its UTF-8 encoding, and Python
    iterates it by code point: a byte [10xxxxxx] continues the code point
    of the byte before it. *)
Definition is_continuation (c : ascii) : bool :=
  (128 <=? nat_of_ascii c)%nat && (nat_of_ascii c <? 192)%nat.

Definition continues (s : string) : bool :=
  match s with
  | String c _ => is_continuation c
  | EmptyString => false
  end.

Fixpoint code_points (s : string) : list string :=
  match s with
  | EmptyString => []
  | String c rest =>
      match code_points rest with
      | g :: gs =>
          if continues rest then String c g :: gs
          else String c EmptyString :: g :: gs
      | [] => [String c EmptyString]
      end
  end.

(** The elements [iter(v)] yields, for the iterable values. *)
Definition py_iter (v : val) : result (list val) :=
  match v with
  | VList l | VTuple l => Ok l
  | VStr s => Ok (map VStr (code_points s))
  | VDict d => Ok (map (fun kv => VStr (fst kv)) d)
  | _ => Raise (TypeError "object is not iterable")
  end.

(** [a += b]: a list is extended in place by the elements of the iterable
    [b]; any other left operand falls back to [a + b]. *)
Definition py_iadd (a b : val) : result val :=
  match a with
  | VList l => xs <~ py_iter b ;; Ok (VList (l ++ xs))
  | _ => py_add a b
  end%py.

(** [str.capitalize()]: first character upper-cased, the rest lower-cased. *)
Definition upper (c : ascii) : ascii :=
  if Re.in_ranges c [("a", "z")]%char
  then ascii_of_nat (nat_of_ascii c - 32) else c.
Definition lower (c : ascii) : ascii :=
  if Re.in_ranges c [("A", "Z")]%char
  then ascii_of_nat (nat_of_ascii c + 32) else c.
Definition capitalize (s : string) : string :=
  match s with
  | EmptyString => EmptyString
  | String c rest =>
      String (upper c) (string_of_list_ascii (map lower (list_ascii_of_string rest)))
  end.

(** [obj.name].  A property of the class comes first, then the instance
    dictionary, then the methods of the class and of its bases; a method
    is returned bound to the object.  For the built-in values only the
    attributes the module asks for are listed. *)
Definition getattr (v : val) (name : string) : result val :=
  match v with
  | VObj c d =>
      if String.eqb name "__dict__" then Ok (VDict d)
      else if match c with Cls_TaggedNote => String.eqb name "all_tags" | _ => false end
      then
        match assoc "header_tags" d with
        | None => Raise (AttributeError "header_tags")
        | Some ht =>
            match assoc "body_tags" d with
            | None => Raise (AttributeError "body_tags")
            | Some bt => py_add ht bt
            end
        end
      else
        match assoc name d with
        | Some x => Ok x
        | None =>
            if has_method c name then Ok (VMethod v name)
            else Raise (AttributeError name)
        end
  | VRegex _ =>
      if mem name ["match"; "__repr__"] then Ok (VMethod v name)
      else Raise (AttributeError name)
  | VDict _ =>
      if mem name ["get"; "items"; "__repr__"] then Ok (VMethod v name)
      else Raise (AttributeError name)
  | VStr _ =>
      if mem name ["capitalize"; "__repr__"] then Ok (VMethod v name)
      else Raise (AttributeError name)
  | _ =>
      if String.eqb name "__repr__" then Ok (VMethod v name)
      else Raise (AttributeError name)
  end.

(** What [pattern.match] returns: a match object or [None]. *)
Definition match_val (m : option Re.match_obj) : val :=
  match m with
  | Some m => VMatch m
  | None => VNone
  end.

(** Calling a bound method of a built-in value.  Values that are not
    callable raise [TypeError]; calls this embedding does not follow (a
    bound method of another kind, a class or function object) are marked
    [NotModelled], and nothing below relies on them. *)
Definition call_builtin (callee : val) (args : list val) : result val :=
  match callee with
  | VMethod (VRegex r) name =>
      if String.eqb name "match" then
        match args with
        | [VStr text] => Ok (match_val (Re.rmatch r text))
        | _ => Raise (TypeError "expected string or bytes-like object")
        end
      else Raise (NotModelled name)
  | VMethod (VDict d) name =>
      if String.eqb name "items" then
        match args with
        | [] => Ok (VList (map (fun kv => VTuple [VStr (fst kv); snd kv]) d))
        | _ => Raise (TypeError "items() takes no arguments")
        end
      else Raise (NotModelled name)
  | VMethod (VStr s) name =>
      if String.eqb name "capitalize" then
        match args with
        | [] => Ok (VStr (capitalize s))
        | _ => Raise (TypeError "capitalize() takes no arguments")
        end
      else Raise (NotModelled name)
  | VMethod _ name => Raise (NotModelled name)
  | VGlobal name => Raise (NotModelled name)
  | _ => Raise (TypeError "object is not callable")
  end.

(** [any(v)] over an iterable. *)
Definition py_any (v : val) : result val :=
  (xs <~ py_iter v ;; Ok (VBool (existsb truthy xs)))%py.

(** *** Names of the module *)

(** The names bound at module level once [main.py] has been executed:
    its imports and its class definitions, in order. *)
Definition module_globals : list string :=
  ["print_function"; "re"; "csv"; "sys"; "boto3";
   "NoteException"; "NoteParserException"; "NoteWriterException";
   "Note"; "NoteParser"; "TaggedNote"; "NoteWriter"; "NoteBlock";
   "NoteCompiler"; "Backend"].

(** The built-in names the module refers to; no built-in is called
    [annotate], [note] or [NoteBlockException]. *)
Definition builtins : list string :=
  ["Exception"; "isinstance"; "str"; "dict"; "list"; "any"; "all"; "map";
   "zip"; "super"; "property"; "classmethod"].

(** The exception classes among the module's names. *)
Definition exception_classes : list string :=
  ["NoteException"; "NoteParserException"; "NoteWriterException"; "Exception"].

(** Reading a name that is not local to a function: module globals, then
    built-ins, else [NameError]. *)
Definition load_global (name : string) : result val :=
  if mem name module_globals || mem name builtins
  then Ok (VGlobal name)
  else Raise (NameError name).

(** [raise Name(msg)] for a global name [Name]. *)
Definition raise_global {A : Type} (name msg : string) : result A :=
  match load_global name with
  | Ok _ =>
      if mem name exception_classes then Raise (Raised name msg)
      else Raise (TypeError "exceptions must derive from BaseException")
  | Raise e => Raise e
  end.

(** *** Objects *)

Definition setattr (name : string) (v : val) : M unit :=
  fun d => (Ok tt, update name v d).

(** [self.name] inside a method of class [c]. *)
Definition self_getattr (c : cls) (name : string) : M val :=
  fun d => (getattr (VObj c d) name, d).

(** [C(args)]: a fresh object with an empty dictionary, initialised by
    [__init__]; an exception in [__init__] leaves no object behind. *)
Definition instantiate (c : cls) (init : M unit) : result val :=
  match init [] with
  | (Ok _, d) => Ok (VObj c d)
  | (Raise e, _) => Raise e
  end.

(** ** class Note *)

Module Note.

Definition __init__ (header body namespace : val) : M unit :=
  (py_assert (is_str header) "Header is not a string." ;;
   py_assert (is_str body) "Body is not a string." ;;
   py_assert (is_str namespace) "Namespace is not a string." ;;
   setattr "header" header ;;
   setattr "body" body ;;
   setattr "namespace" (if negb (truthy namespace) then VStr "" else namespace))%py.

(** [Note(header, body)] and [Note(header, body, namespace)]: an omitted
    [namespace] takes the default of the signature, [None]. *)
Definition new (header body : val) (namespace : option val) : result val :=
  instantiate Cls_Note
    (__init__ header body
              (match namespace with Some v => v | None => VNone end)).

Definition __repr__ (self : val) : result val :=
  (h <~ getattr self "header" ;;
   b <~ getattr self "body" ;;
   n <~ getattr self "namespace" ;;
   Ok (VList [h; b; n]))%py.

End Note.

(** ** class NoteParser *)

Module NoteParser.

Definition default_pattern : string := "(?:^|/s)(?:%s)([a-zA-Z/d]+)".

(** [template % arg] for a string template and a string argument: the
    only directives followed are [%s] and [%%], and a single argument
    must be consumed by exactly one [%s].  Operands of other types are
    not followed here. *)
Fixpoint substitute (t : list ascii) (arg : string) (used : bool)
  : option (list ascii * bool) :=
  match t with
  | [] => Some ([], used)
  | c :: rest =>
      if Ascii.eqb c "%" then
        match rest with
        | d :: rest' =>
            if Ascii.eqb d "s" then
              if used then None
              else match substitute rest' arg true with
                   | Some (out, u) => Some (List.app (list_ascii_of_string arg) out, u)
                   | None => None
                   end
            else if Ascii.eqb d "%" then
              match substitute rest' arg used with
              | Some (out, u) => Some (d :: out, u)
              | None => None
              end
            else None
        | [] => None
        end
      else
        match substitute rest arg used with
        | Some (out, u) => Some (c :: out, u)
        | None => None
        end
  end.

Definition py_percent (template arg : val) : result val :=
  match template, arg with
  | VStr t, VStr a =>
      match substitute (list_ascii_of_string t) a false with
      | Some (out, true) => Ok (VStr (string_of_list_ascii out))
      | _ => Raise (TypeError "not all arguments converted during string formatting")
      end
  | _, _ => Raise (NotModelled "%")
  end.

(** [re.compile(pattern)] *)
Definition re_compile (pattern : val) : result val :=
  match pattern with
  | VStr p =>
      match Re.compile p with
      | Some r => Ok (VRegex r)
      | None => Raise (ReError p)
      end
  | VRegex r => Ok (VRegex r)
  | _ => Raise (TypeError "first argument must be string or compiled pattern")
  end.

Definition __init__ (config : val) : M unit :=
  (py_assert (is_dict config) "Config is not a dict." ;;
   p <- lift (dict_get config "default_pattern") ;;
   setattr "_default_pattern" (py_or p (VStr default_pattern)) ;;
   c <- lift (dict_get config "tag_char") ;;
   setattr "_default_tag_char" (py_or c (VStr "#")) ;;
   template <- self_getattr Cls_NoteParser "_default_pattern" ;;
   tag_char <- self_getattr Cls_NoteParser "_tag_char" ;;
   pattern <- lift (py_percent template tag_char) ;;
   regex <- lift (re_compile pattern) ;;
   setattr "_regex" regex)%py.

Definition new (config : val) : result val :=
  instantiate Cls_NoteParser (__init__ config).

Definition parse_tags (self note : val) : result val :=
  (rx <~ getattr self "_regex" ;;
   m1 <~ getattr rx "match" ;;
   header <~ getattr note "header" ;;
   h <~ call_builtin m1 [header] ;;
   rx' <~ getattr self "_regex" ;;
   m2 <~ getattr rx' "match" ;;
   body <~ getattr note "body" ;;
   b <~ call_builtin m2 [body] ;;
   Ok (VTuple [h; b]))%py.

(** [any(self.parse_tags)]: the method itself is handed to [any], it is
    not called and [note] is not used. *)
Definition note_is_tagged (self note : val) : result val :=
  (f <~ getattr self "parse_tags" ;;
   py_any f)%py.

End NoteParser.

(** Calling a value: the bound methods of [Note] and [NoteParser] run
    their bodies, everything else is a call on a built-in value. *)
Definition call (callee : val) (args : list val) : result val :=
  match callee with
  | VMethod (VObj Cls_NoteParser d) name =>
      if String.eqb name "parse_tags" then
        match args with
        | [note] => NoteParser.parse_tags (VObj Cls_NoteParser d) note
        | _ => Raise (TypeError "parse_tags() takes 1 positional argument")
        end
      else if String.eqb name "note_is_tagged" then
        match args with
        | [note] => NoteParser.note_is_tagged (VObj Cls_NoteParser d) note
        | _ => Raise (TypeError "note_is_tagged() takes 1 positional argument")
        end
      else Raise (NotModelled name)
  | VMethod (VObj Cls_Note d as self) name
  | VMethod (VObj Cls_TaggedNote d as self) name =>
      if String.eqb name "__repr__" then
        match args with
        | [] => Note.__repr__ self
        | _ => Raise (TypeError "__repr__() takes no arguments")
        end
      else Raise (NotModelled name)
  | _ => call_builtin callee args
  end.

(** [a, b = v] *)
Definition unpack2 (v : val) : result (val * val) :=
  (xs <~ py_iter v ;;
   match xs with
   | [a; b] => Ok (a, b)
   | _ => Raise (ValueError "wrong number of values to unpack")
   end)%py.

(** ** class TaggedNote(Note) *)

Module TaggedNote.

(** [all(map(lambda t: isinstance(t, str), tags))] *)
Definition all_str (tags : val) : result bool :=
  (xs <~ py_iter tags ;; Ok (forallb is_str xs))%py.

Definition __init__ (header body namespace header_tags body_tags : val)
  : M unit :=
  (Note.__init__ header body namespace ;;
   py_assert (is_list header_tags) "Header tags is not a list." ;;
   py_assert (is_list body_tags) "Body tags is not a list." ;;
   hs <- lift (all_str header_tags) ;;
   py_assert hs "Header tags is not a list of strings" ;;
   bs <- lift (all_str body_tags) ;;
   py_assert bs "Body tags is not a list of strings" ;;
   setattr "header_tags" (py_or header_tags (VList [])) ;;
   setattr "body_tags" (py_or body_tags (VList [])))%py.

Definition new (header body namespace header_tags body_tags : val)
  : result val :=
  instantiate Cls_TaggedNote
    (__init__ header body namespace header_tags body_tags).

(** The property [all_tags]. *)
Definition all_tags (self : val) : result val := getattr self "all_tags".

Definition parse_tagged_note (note parser : val) : result val :=
  (f <~ getattr parser "parse_tags" ;;
   tags <~ call f [note] ;;
   ht_bt <~ unpack2 tags ;;
   header <~ getattr note "header" ;;
   body <~ getattr note "body" ;;
   namespace <~ getattr note "namespace" ;;
   new header body namespace (fst ht_bt) (snd ht_bt))%py.

End TaggedNote.

(** ** class NoteWriter *)

Module NoteWriter.

Definition __init__ (config : val) : M unit :=
  (py_assert (is_dict config) "Config is not a dict." ;;
   a <- lift (dict_get config "annotate") ;;
   setattr "_annotate" (py_or a (VBool false)))%py.

Definition new (config : val) : result val :=
  instantiate Cls_NoteWriter (__init__ config).

Definition _get_tags_dict (self note : val) : result val :=
  (f <~ getattr self "_parse_all_tags" ;;
   tags <~ call f [note] ;;
   xs <~ py_iter tags ;;
   Ok (VList (map (fun kv => VTuple [VStr (fst kv); snd kv])
                  (combine ["headertags"; "bodytags"] xs))))%py.

(** [to_dict(self, tagged=True)]: the body reads a name [note] that is
    neither a parameter nor a global. *)
Definition to_dict (self : val) (tagged : option val) : result val :=
  let tagged := match tagged with Some t => t | None => VBool true end in
  (note <~ load_global "note" ;;
   if negb (is_Note note)
   then Raise (AssertionError "%s is not a Note object.")
   else if truthy tagged then
     d <~ getattr note "__dict__" ;;
     merge <~ getattr d "merge" ;;
     g <~ getattr self "_get_tags_dict" ;;
     call merge [g]
   else getattr note "__dict__")%py.

Fixpoint mapM {A B : Type} (f : A -> result B) (l : list A)
  : result (list B) :=
  match l with
  | [] => Ok []
  | x :: l' => (y <~ f x ;; ys <~ mapM f l' ;; Ok (y :: ys))%py
  end.

Section WithStr.
(** The built-in [str()], which [str.format] applies to its arguments. *)
Variable str_of : val -> string.

(** [to_csv(self, note)]: the body tests a name [annotate] that is
    neither local nor global, returns the bound method
    [note.__repr__] without calling it, and reads [note.as_dict]. *)
Definition to_csv (self note : val) : result val :=
  (annotate <~ load_global "annotate" ;;
   if negb (truthy annotate) then getattr note "__repr__"
   else
     d <~ getattr note "as_dict" ;;
     f <~ getattr d "items" ;;
     items <~ call f [] ;;
     xs <~ py_iter items ;;
     rows <~ mapM (fun kv =>
                     p <~ unpack2 kv ;;
                     c <~ getattr (fst p) "capitalize" ;;
                     key <~ call c [] ;;
                     Ok (VStr (str_of key ++ str_of (snd p)))) xs ;;
     Ok (VList rows))%py.
End WithStr.

End NoteWriter.

(** ** class NoteBlock *)

Module NoteBlock.

Definition __init__ : M unit :=
  (setattr "_MAX_NOTE_BLOCK_SIZE" (VInt (1024 * 30)) ;;
   setattr "_note_block" (VList []))%py.

Definition new : result val := instantiate Cls_NoteBlock __init__.

Section WithSizeof.
(** [sys.getsizeof], the interpreter's size of an object in memory. *)
Variable getsizeof : val -> Z.

Definition _add_note_to_block (note : val) : M unit :=
  (size <- self_getattr Cls_NoteBlock "note_block_size" ;;
   total <- lift (py_add_int size (getsizeof note)) ;;
   limit <- self_getattr Cls_NoteBlock "_MAX_NOTE_BLOCK_SIZE" ;;
   fits <- lift (py_int_le total limit) ;;
   if (fits : bool) then
     block <- self_getattr Cls_NoteBlock "_note_block" ;;
     block' <- lift (py_iadd block note) ;;
     setattr "_note_block" block'
   else
     lift (raise_global "NoteBlockException" "Cannot add note to block."))%py.

(** [for note in notes: self._add_note_to_block(note)] *)
Fixpoint add_each (notes : list val) : M unit :=
  match notes with
  | [] => ret tt
  | note :: rest => (_add_note_to_block note ;; add_each rest)%py
  end.

(** In the [elif], [note] is the loop variable of the branch not taken:
    a local name with no value yet. *)
Definition add_notes_to_block (notes : val) : M unit :=
  match notes with
  | VList items => add_each items
  | _ => throw (UnboundLocalError "note")
  end.
End WithSizeof.

End NoteBlock.

(** ** class NoteCompiler *)

Module NoteCompiler.

Definition __init__ (config : val) : M unit :=
  (parser <- lift (NoteParser.new config) ;;
   setattr "_note_parser" parser ;;
   writer <- lift (NoteWriter.new config) ;;
   setattr "_note_writer" writer ;;
   block <- lift NoteBlock.new ;;
   setattr "_note_block" block)%py.

Definition new (config : val) : result val :=
  instantiate Cls_NoteCompiler (__init__ config).

End NoteCompiler.

(** [obj.name(args)] *)
Definition call_method (obj : val) (name : string) (args : list val)
  : result val :=
  (f <~ getattr obj name ;; call f args)%py.

(** A tag list as the specification has it: a list holding only strings. *)
Definition str_list (v : val) : bool :=
  match v with
  | VList l => forallb is_str l
  | _ => false
  end.

(** The object [Note(header, body, namespace)] builds from three strings. *)
Definition note_of (header body namespace : string) : val :=
  VObj Cls_Note [("header", VStr header); ("body", VStr body);
                 ("namespace", VStr namespace)].

(** The exceptions the interpreter itself raises on a faulty program
    text, as opposed to those a [raise] statement of the module raises. *)
Definition interpreter_error (e : exn) : bool :=
  match e with
  | AttributeError _ | NameError _ | UnboundLocalError _ | TypeError _ => true
  | _ => false
  end.


(** *** Sample objects *)

(** The pattern text the default configuration asks [re] to compile. *)
Definition hash_pattern : string := "(?:^|/s)(?:#)([a-zA-Z/d]+)".

(** Its compiled form: [/s] and [/d] are ordinary characters. *)
Definition hash_regex : Re.regex :=
  Re.RSeq (Re.RAlt Re.RBol (Re.RSeq (Re.RChar "/") (Re.RChar "s")))
          (Re.RSeq (Re.RChar "#")
                   (Re.RGroup 1 (Re.RPlus (Re.RSet false
                      [("a", "z"); ("A", "Z"); ("/", "/"); ("d", "d")]%char)))).

(** A parser as [NoteParser.__init__] means to leave it for the default
    configuration. *)
Definition hash_parser : val :=
  VObj Cls_NoteParser
       [("_default_pattern", VStr NoteParser.default_pattern);
        ("_default_tag_char", VStr "#");
        ("_regex", VRegex hash_regex)].

Definition meeting_note : val :=
  note_of "Meeting #work #urgent" "notes #todo" "".

Definition plain_note : val := note_of "shopping list" "milk and eggs" "".

(** A block as [NoteBlock()] leaves it. *)
Definition empty_block : attrs :=
  [("_MAX_NOTE_BLOCK_SIZE", VInt 30720); ("_note_block", VList [])].

(** A block on which a caller has stored a running total by hand. *)
Definition block_with_total (total : Z) (members : list val) : attrs :=
  [("_MAX_NOTE_BLOCK_SIZE", VInt 30720); ("_note_block", VList members);
   ("note_block_size", VInt total)].

(** A compiler object holding a parser, a writer and an empty block. *)
Definition sample_compiler : val :=
  VObj Cls_NoteCompiler
       [("_note_parser", hash_parser);
        ("_note_writer", VObj Cls_NoteWriter [("_annotate", VBool false)]);
        ("_note_block", VObj Cls_NoteBlock empty_block)].

(** [NoteCompiler(config).ingest(note)], as a client of the module
    would write it. *)
Definition construct_and_ingest (config note : val) : result val :=
  (compiler <~ NoteCompiler.new config ;;
   call_method compiler "ingest" [note])%py.

(** A size function for the samples: an object header of 56 bytes and
    one byte for every character of the string attributes. *)
Definition text_size (v : val) : Z :=
  match v with
  | VObj _ d =>
      fold_right (fun kv acc =>
                    match snd kv with
                    | VStr s => Z.of_nat (String.length s) + acc
                    | _ => acc
                    end) 56 d
  | _ => 56
  end.

(** A note whose body alone is longer than the limit of a block. *)
Definition long_note : val :=
  note_of "log" (string_of_list_ascii (repeat "x"%char (31 * 1000))) "".

(** * Properties *)

(** ** Values *)

Lemma is_str_inv (v : val) : is_str v = true -> exists s, v = VStr s.
Proof. destruct v; simpl; try discriminate. intros _. now eexists. Qed.

Lemma forallb_is_str (l : list val) :
  forallb is_str l = true -> exists ss, l = map VStr ss.
Proof.
  induction l as [|v l IH]; simpl; intros H.
  - now exists [].
  - apply andb_true_iff in H as [Hv Hl].
    destruct (is_str_inv v Hv) as [s ->], (IH Hl) as [ss ->].
    now exists (s :: ss).
Qed.

Lemma str_list_inv (v : val) :
  str_list v = true -> exists ss, v = VList (map VStr ss).
Proof.
  destruct v; simpl; try discriminate. intros H.
  destruct (forallb_is_str _ H) as [ss ->]. now eexists.
Qed.

Lemma py_or_list_nil (l : list val) : py_or (VList l) (VList []) = VList l.
Proof. now destruct l. Qed.

Lemma namespace_or_empty (s : string) :
  (if negb (truthy (VStr s)) then VStr "" else VStr s) = VStr s.
Proof.
  simpl. destruct (String.eqb_spec s ""); simpl; congruence.
Qed.

(** ** Note and TaggedNote: what the constructors accept *)

Lemma Note_init_eq (header body namespace : val) (d : attrs) :
  Note.__init__ header body namespace d =
  if is_str header then
    if is_str body then
      if is_str namespace then
        (Ok tt,
         update "namespace"
                (if negb (truthy namespace) then VStr "" else namespace)
                (update "body" body (update "header" header d)))
      else (Raise (AssertionError "Namespace is not a string."), d)
    else (Raise (AssertionError "Body is not a string."), d)
  else (Raise (AssertionError "Header is not a string."), d).
Proof.
  unfold Note.__init__, bind, py_assert.
  destruct (is_str header), (is_str body), (is_str namespace); reflexivity.
Qed.

Lemma Note_new_strings (h b n : string) :
  Note.new (VStr h) (VStr b) (Some (VStr n)) =
  Ok (VObj Cls_Note
           [("header", VStr h); ("body", VStr b); ("namespace", VStr n)]).
Proof.
  unfold Note.new, instantiate. rewrite Note_init_eq.
  cbn [is_str]. rewrite namespace_or_empty. reflexivity.
Qed.

Lemma Note_new_rejects (header body namespace : val) :
  is_str header && is_str body && is_str namespace = false ->
  exists msg,
    Note.new header body (Some namespace) = Raise (AssertionError msg).
Proof.
  intros H. unfold Note.new, instantiate. rewrite Note_init_eq.
  destruct (is_str header), (is_str body), (is_str namespace);
    try discriminate; eexists; reflexivity.
Qed.

Lemma Note_new_accepts (header body namespace o : val) :
  Note.new header body (Some namespace) = Ok o ->
  exists h b n,
    header = VStr h /\ body = VStr b /\ namespace = VStr n /\
    o = VObj Cls_Note
             [("header", VStr h); ("body", VStr b); ("namespace", VStr n)].
Proof.
  intros H.
  destruct (is_str header) eqn:Hh, (is_str body) eqn:Hb,
           (is_str namespace) eqn:Hn;
    try (unfold Note.new, instantiate in H; rewrite Note_init_eq in H;
         rewrite Hh in H; try rewrite Hb in H; try rewrite Hn in H;
         discriminate).
  destruct (is_str_inv _ Hh) as [h ->], (is_str_inv _ Hb) as [b ->],
           (is_str_inv _ Hn) as [n ->].
  rewrite Note_new_strings in H. injection H as <-.
  exists h, b, n. repeat split.
Qed.

Lemma forallb_map_VStr (ss : list string) :
  forallb is_str (map VStr ss) = true.
Proof. induction ss; simpl; auto. Qed.

Lemma TaggedNote_new_strings (h b n : string) (hts bts : list string) :
  TaggedNote.new (VStr h) (VStr b) (VStr n)
                 (VList (map VStr hts)) (VList (map VStr bts)) =
  Ok (VObj Cls_TaggedNote
           [("header", VStr h); ("body", VStr b); ("namespace", VStr n);
            ("header_tags", VList (map VStr hts));
            ("body_tags", VList (map VStr bts))]).
Proof.
  unfold TaggedNote.new, instantiate, TaggedNote.__init__, bind.
  rewrite Note_init_eq. cbn [is_str]. rewrite namespace_or_empty.
  cbn [py_assert is_list ret lift TaggedNote.all_str py_iter rbind].
  rewrite !forallb_map_VStr. cbn [py_assert ret setattr].
  rewrite !py_or_list_nil. reflexivity.
Qed.

Lemma TaggedNote_new_rejects (header body namespace header_tags body_tags : val) :
  is_str header && is_str body && is_str namespace
  && str_list header_tags && str_list body_tags = false ->
  exists msg,
    TaggedNote.new header body namespace header_tags body_tags =
    Raise (AssertionError msg).
Proof.
  intros H.
  unfold TaggedNote.new, instantiate, TaggedNote.__init__, bind.
  rewrite Note_init_eq.
  destruct (is_str header); [|eexists; reflexivity].
  destruct (is_str body); [|eexists; reflexivity].
  destruct (is_str namespace); [|eexists; reflexivity].
  cbn [andb] in H.
  destruct header_tags; try (eexists; reflexivity).
  destruct body_tags; try (eexists; reflexivity).
  cbn [str_list] in H.
  cbn [py_assert is_list ret lift TaggedNote.all_str py_iter rbind].
  destruct (forallb is_str items); [|eexists; reflexivity].
  destruct (forallb is_str items0); [discriminate|eexists; reflexivity].
Qed.

Lemma TaggedNote_new_accepts (header body namespace header_tags body_tags o : val) :
  TaggedNote.new header body namespace header_tags body_tags = Ok o ->
  exists h b n hts bts,
    o = VObj Cls_TaggedNote
             [("header", VStr h); ("body", VStr b); ("namespace", VStr n);
              ("header_tags", VList (map VStr hts));
              ("body_tags", VList (map VStr bts))].
Proof.
  intros H.
  destruct (is_str header && is_str body && is_str namespace
            && str_list header_tags && str_list body_tags) eqn:E.
  - repeat (apply andb_true_iff in E as [E ?]).
    destruct (is_str_inv _ E) as [h ->].
    destruct (is_str_inv body) as [b ->]; [assumption|].
    destruct (is_str_inv namespace) as [n ->]; [assumption|].
    destruct (str_list_inv header_tags) as [hts ->]; [assumption|].
    destruct (str_list_inv body_tags) as [bts ->]; [assumption|].
    rewrite TaggedNote_new_strings in H. injection H as <-.
    now exists h, b, n, hts, bts.
  - destruct (TaggedNote_new_rejects _ _ _ _ _ E) as [msg Hmsg].
    congruence.
Qed.

(** C10.  The constructors check their argument types: a [Note] whose
    header, body or namespace is not a string, and a [TaggedNote] whose
    header_tags or body_tags is not a list of strings, raise
    [AssertionError]; hence every [Note] or [TaggedNote] that was
    constructed holds strings in its three text fields and lists of
    strings in its two tag fields. *)
Theorem constructors_check_types
        (header body namespace header_tags body_tags : val) :
  (is_str header && is_str body && is_str namespace = false ->
   exists msg,
     Note.new header body (Some namespace) = Raise (AssertionError msg))
  /\ (is_str header && is_str body && is_str namespace
      && str_list header_tags && str_list body_tags = false ->
      exists msg,
        TaggedNote.new header body namespace header_tags body_tags =
        Raise (AssertionError msg))
  /\ (forall o,
         Note.new header body (Some namespace) = Ok o ->
         exists h b n,
           o = VObj Cls_Note
                    [("header", VStr h); ("body", VStr b);
                     ("namespace", VStr n)])
  /\ (forall o,
         TaggedNote.new header body namespace header_tags body_tags = Ok o ->
         exists h b n hts bts,
           o = VObj Cls_TaggedNote
                    [("header", VStr h); ("body", VStr b);
                     ("namespace", VStr n);
                     ("header_tags", VList (map VStr hts));
                     ("body_tags", VList (map VStr bts))]).
Proof.
  repeat split.
  - apply Note_new_rejects.
  - apply TaggedNote_new_rejects.
  - intros o H. destruct (Note_new_accepts _ _ _ _ H) as (h & b & n & _ & _ & _ & ->).
    now exists h, b, n.
  - apply TaggedNote_new_accepts.
Qed.

Lemma constructors_check_types_witness :
  (exists msg,
      Note.new (VInt 7) (VStr "body") (Some (VStr "ns")) =
      Raise (AssertionError msg))
  /\ (exists msg,
         TaggedNote.new (VStr "h") (VStr "b") (VStr "ns")
                        (VList [VStr "work"; VInt 3]) (VList []) =
         Raise (AssertionError msg))
  /\ (exists h b n,
         VObj Cls_Note [("header", VStr "h"); ("body", VStr "b");
                        ("namespace", VStr "ns")] =
         VObj Cls_Note [("header", VStr h); ("body", VStr b);
                        ("namespace", VStr n)])
  /\ (exists h b n hts bts,
         VObj Cls_TaggedNote
              [("header", VStr "h"); ("body", VStr "b");
               ("namespace", VStr "ns");
               ("header_tags", VList [VStr "work"]);
               ("body_tags", VList [])] =
         VObj Cls_TaggedNote
              [("header", VStr h); ("body", VStr b); ("namespace", VStr n);
               ("header_tags", VList (map VStr hts));
               ("body_tags", VList (map VStr bts))]).
Proof.
  split; [|split; [|split]].
  - apply (proj1 (constructors_check_types
                    (VInt 7) (VStr "body") (VStr "ns") VNone VNone)).
    reflexivity.
  - apply (proj1 (proj2 (constructors_check_types
                    (VStr "h") (VStr "b") (VStr "ns")
                    (VList [VStr "work"; VInt 3]) (VList [])))).
    reflexivity.
  - apply (proj1 (proj2 (proj2 (constructors_check_types
                    (VStr "h") (VStr "b") (VStr "ns") VNone VNone)))).
    reflexivity.
  - apply (proj2 (proj2 (proj2 (constructors_check_types
                    (VStr "h") (VStr "b") (VStr "ns")
                    (VList [VStr "work"]) (VList []))))).
    reflexivity.
Defined.

(** C9.  A [Note] built from a header and a body with no namespace
    argument is not constructed at all: the default of the signature is
    [None], which the namespace assertion rejects.  Passing the empty
    string explicitly is what yields the empty namespace. *)
Theorem Note_without_namespace_is_rejected (h b : string) :
  Note.new (VStr h) (VStr b) None =
    Raise (AssertionError "Namespace is not a string.")
  /\ Note.new (VStr h) (VStr b) (Some (VStr "")) = Ok (note_of h b "").
Proof.
  split.
  - unfold Note.new, instantiate. rewrite Note_init_eq. reflexivity.
  - apply Note_new_strings.
Qed.

Lemma Note_without_namespace_never_succeeds (header body : val) :
  exists msg, Note.new header body None = Raise (AssertionError msg).
Proof.
  apply (Note_new_rejects header body VNone).
  now rewrite andb_false_r.
Qed.

(** ** NoteParser *)

Lemma NoteParser_new_fails (config : val) :
  NoteParser.new config =
  if is_dict config then Raise (AttributeError "_tag_char")
  else Raise (AssertionError "Config is not a dict.").
Proof.
  unfold NoteParser.new, instantiate, NoteParser.__init__, bind, py_assert.
  destruct config; try reflexivity.
  cbn [is_dict ret lift dict_get].
  destruct (assoc "default_pattern" entries), (assoc "tag_char" entries);
    reflexivity.
Qed.

Lemma hash_pattern_compiles :
  NoteParser.py_percent (VStr NoteParser.default_pattern) (VStr "#")
  = Ok (VStr hash_pattern)
  /\ NoteParser.re_compile (VStr hash_pattern) = Ok (VRegex hash_regex).
Proof. split; vm_compute; reflexivity. Qed.

Lemma getattr_regex (d : attrs) (r : Re.regex) :
  assoc "_regex" d = Some (VRegex r) ->
  getattr (VObj Cls_NoteParser d) "_regex" = Ok (VRegex r).
Proof. intros H. unfold getattr. cbn. now rewrite H. Qed.

Lemma getattr_parse_tags (d : attrs) :
  assoc "parse_tags" d = None ->
  getattr (VObj Cls_NoteParser d) "parse_tags" =
  Ok (VMethod (VObj Cls_NoteParser d) "parse_tags").
Proof. intros H. unfold getattr. cbn. now rewrite H. Qed.

(** What [parse_tags] returns: one [match] result for the header and one
    for the body, each a match object or [None]. *)
Lemma parse_tags_eq (d : attrs) (r : Re.regex) (h b n : string) :
  assoc "_regex" d = Some (VRegex r) ->
  NoteParser.parse_tags (VObj Cls_NoteParser d) (note_of h b n) =
  Ok (VTuple [match_val (Re.rmatch r h); match_val (Re.rmatch r b)]).
Proof.
  intros H. unfold NoteParser.parse_tags.
  rewrite (getattr_regex d r H). reflexivity.
Qed.

Lemma match_val_not_list (m : option Re.match_obj) :
  is_list (match_val m) = false.
Proof. now destruct m. Qed.

(** The result of [parse_tags] never passes the assertions of
    [TaggedNote.__init__], whatever the pattern and the texts. *)
Lemma parse_tagged_note_fails (d : attrs) (r : Re.regex) (h b n : string) :
  assoc "_regex" d = Some (VRegex r) ->
  assoc "parse_tags" d = None ->
  TaggedNote.parse_tagged_note (note_of h b n) (VObj Cls_NoteParser d) =
  Raise (AssertionError "Header tags is not a list.").
Proof.
  intros Hr Hp. unfold TaggedNote.parse_tagged_note.
  rewrite (getattr_parse_tags d Hp). cbn [rbind call String.eqb Ascii.eqb Bool.eqb].
  rewrite (parse_tags_eq d r h b n Hr).
  cbn [rbind unpack2 py_iter]. unfold note_of.
  cbn [getattr String.eqb Ascii.eqb Bool.eqb assoc rbind fst snd].
  unfold TaggedNote.new, instantiate, TaggedNote.__init__, bind.
  rewrite Note_init_eq. cbn [is_str py_assert].
  rewrite match_val_not_list. reflexivity.
Qed.

(** C3.  With the default configuration the tags of the note with header
    "Meeting #work #urgent" and body "notes #todo" are not extracted: no
    parser can be constructed, and a parser holding the compiled default
    pattern finds no match at the start of either text and cannot yield a
    tagged note. *)
Theorem meeting_note_tags_not_extracted :
  NoteParser.new (VDict []) = Raise (AttributeError "_tag_char")
  /\ NoteParser.py_percent (VStr NoteParser.default_pattern) (VStr "#")
     = Ok (VStr hash_pattern)
  /\ NoteParser.re_compile (VStr hash_pattern) = Ok (VRegex hash_regex)
  /\ NoteParser.parse_tags hash_parser meeting_note = Ok (VTuple [VNone; VNone])
  /\ TaggedNote.parse_tagged_note meeting_note hash_parser =
     Raise (AssertionError "Header tags is not a list.").
Proof.
  repeat split; vm_compute; reflexivity.
Qed.

(** C5.  When the pattern matches neither the header nor the body,
    [parse_tags] does not fail, but what it returns for each text is
    [None], not an empty sequence; deriving a tagged note from it then
    fails on the list assertion. *)
Theorem no_match_yields_None (d : attrs) (r : Re.regex) (h b n : string) :
  assoc "_regex" d = Some (VRegex r) ->
  assoc "parse_tags" d = None ->
  Re.rmatch r h = None ->
  Re.rmatch r b = None ->
  NoteParser.parse_tags (VObj Cls_NoteParser d) (note_of h b n) =
    Ok (VTuple [VNone; VNone])
  /\ TaggedNote.parse_tagged_note (note_of h b n) (VObj Cls_NoteParser d) =
     Raise (AssertionError "Header tags is not a list.").
Proof.
  intros Hr Hp Hh Hb. split.
  - rewrite (parse_tags_eq d r h b n Hr), Hh, Hb. reflexivity.
  - now apply (parse_tagged_note_fails d r).
Qed.

Lemma no_match_yields_None_witness :
  NoteParser.parse_tags hash_parser plain_note = Ok (VTuple [VNone; VNone])
  /\ TaggedNote.parse_tagged_note plain_note hash_parser =
     Raise (AssertionError "Header tags is not a list.").
Proof.
  apply (no_match_yields_None
           [("_default_pattern", VStr NoteParser.default_pattern);
            ("_default_tag_char", VStr "#");
            ("_regex", VRegex hash_regex)]
           hash_regex "shopping list" "milk and eggs" "");
    reflexivity.
Defined.

(** C7.  [note_is_tagged] never answers: it hands the bound method
    [parse_tags] itself to [any], which raises [TypeError] whether or
    not the note carries a tag. *)
Theorem note_is_tagged_raises (d : attrs) (note : val) :
  assoc "parse_tags" d = None ->
  NoteParser.note_is_tagged (VObj Cls_NoteParser d) note =
  Raise (TypeError "object is not iterable").
Proof.
  intros H. unfold NoteParser.note_is_tagged.
  rewrite (getattr_parse_tags d H). reflexivity.
Qed.

Lemma note_is_tagged_raises_witness :
  NoteParser.parse_tags hash_parser (note_of "#work today" "" "") =
    Ok (VTuple [VMatch (Re.MatchObj 5 [(1%nat, "work")]); VNone])
  /\ NoteParser.note_is_tagged hash_parser (note_of "#work today" "" "") =
     Raise (TypeError "object is not iterable").
Proof.
  split.
  - reflexivity.
  - apply (note_is_tagged_raises
             [("_default_pattern", VStr NoteParser.default_pattern);
              ("_default_tag_char", VStr "#");
              ("_regex", VRegex hash_regex)]).
    reflexivity.
Defined.

(** ** NoteWriter *)

(** C6.  No record is exported.  [to_csv] fails on the unbound name
    [annotate] for every writer and every note, with annotation enabled
    or not, and [to_dict] fails on the unbound name [note]; the three
    fields header, body, namespace, in that order, are only what
    [Note.__repr__] returns when it is called directly. *)
Theorem export_raises_NameError
        (str_of : val -> string) (self note : val) (tagged : option val)
        (h b n : string) :
  NoteWriter.to_csv str_of self note = Raise (NameError "annotate")
  /\ NoteWriter.to_dict self tagged = Raise (NameError "note")
  /\ Note.__repr__ (note_of h b n) = Ok (VList [VStr h; VStr b; VStr n]).
Proof.
  repeat split.
Qed.

(** ** NoteBlock *)

Lemma getattr_block (d : attrs) (name : string) :
  String.eqb name "__dict__" = false ->
  has_method Cls_NoteBlock name = false ->
  getattr (VObj Cls_NoteBlock d) name =
  match assoc name d with
  | Some v => Ok v
  | None => Raise (AttributeError name)
  end.
Proof.
  intros H1 H2. unfold getattr. rewrite H1, H2. reflexivity.
Qed.

Ltac add_note_steps :=
  unfold NoteBlock._add_note_to_block, bind, self_getattr, lift;
  rewrite ?getattr_block by reflexivity.

(** [block += note] raises [TypeError] when [note] is an instance of one
    of the module's classes: a list cannot iterate over it, and nothing
    else can be added to it. *)
Lemma py_iadd_object (a : val) (c : cls) (nd : attrs) :
  exists msg, py_iadd a (VObj c nd) = Raise (TypeError msg).
Proof.
  destruct a; try destruct b; eexists; reflexivity.
Qed.

(** Whatever the block holds, adding an instance of one of the module's
    classes raises an interpreter error and leaves the block as it was. *)
Lemma add_note_fails (getsizeof : val -> Z) (d : attrs) (c : cls) (nd : attrs) :
  exists e,
    NoteBlock._add_note_to_block getsizeof (VObj c nd) d = (Raise e, d)
    /\ interpreter_error e = true.
Proof.
  add_note_steps.
  destruct (assoc "note_block_size" d) as [size|];
    [|eexists; split; reflexivity].
  destruct (py_add_int size (getsizeof (VObj c nd))) as [total|e] eqn:Ha.
  2:{ exists e. split; [reflexivity|].
      destruct size; simpl in Ha; try discriminate;
        injection Ha as <-; reflexivity. }
  destruct (assoc "_MAX_NOTE_BLOCK_SIZE" d) as [limit|];
    [|eexists; split; reflexivity].
  destruct (py_int_le total limit) as [fits|e] eqn:Hl.
  2:{ exists e. split; [reflexivity|].
      destruct limit; simpl in Hl; try discriminate;
        injection Hl as <-; reflexivity. }
  destruct fits.
  - rewrite getattr_block by reflexivity.
    destruct (assoc "_note_block" d) as [block|];
      [|eexists; split; reflexivity].
    destruct (py_iadd_object block c nd) as [msg ->].
    eexists; split; reflexivity.
  - eexists; split; reflexivity.
Qed.

(** C1.  A block keeps no running byte total.  On a new block reading
    [note_block_size] raises [AttributeError], and so does the first add
    of any note, which leaves the block empty; and whatever a block
    holds, adding a note object raises and changes nothing, so that no
    add ever succeeds and no total is ever accumulated. *)
Theorem block_has_no_running_total (getsizeof : val -> Z) :
  NoteBlock.new = Ok (VObj Cls_NoteBlock empty_block)
  /\ getattr (VObj Cls_NoteBlock empty_block) "note_block_size" =
     Raise (AttributeError "note_block_size")
  /\ (forall note,
        NoteBlock._add_note_to_block getsizeof note empty_block =
        (Raise (AttributeError "note_block_size"), empty_block))
  /\ (forall d c nd,
        exists e,
          NoteBlock._add_note_to_block getsizeof (VObj c nd) d = (Raise e, d)
          /\ interpreter_error e = true).
Proof.
  repeat split. intros d c nd. apply add_note_fails.
Qed.

(** C2.  A note that would push the running total past the limit is
    rejected and the block is unchanged, but not with an exception of the
    module: the [raise] statement names [NoteBlockException], which is
    not defined, so the rejection surfaces as [NameError]. *)
Theorem overflow_raises_NameError
        (getsizeof : val -> Z) (d : attrs) (total limit : Z) (note : val) :
  assoc "note_block_size" d = Some (VInt total) ->
  assoc "_MAX_NOTE_BLOCK_SIZE" d = Some (VInt limit) ->
  limit < total + getsizeof note ->
  NoteBlock._add_note_to_block getsizeof note d
  = (Raise (NameError "NoteBlockException"), d).
Proof.
  intros Ht Hl H. add_note_steps. rewrite Ht, Hl.
  cbn [py_add_int py_int_le].
  destruct (Z.leb_spec (total + getsizeof note) limit); [lia|].
  reflexivity.
Qed.

Lemma overflow_raises_NameError_witness :
  NoteBlock._add_note_to_block (fun _ => 50) plain_note
                               (block_with_total 30700 [])
  = (Raise (NameError "NoteBlockException"), block_with_total 30700 []).
Proof.
  apply (overflow_raises_NameError
           (fun _ => 50) (block_with_total 30700 []) 30700 30720 plain_note);
    reflexivity.
Defined.

(** C8.  A note that fits is not appended: [self._note_block += note]
    asks the list to iterate over the note object, which raises
    [TypeError], and the members are what they were. *)
Theorem fitting_note_is_not_appended
        (getsizeof : val -> Z) (d : attrs) (total limit : Z)
        (members : list val) (c : cls) (nd : attrs) :
  assoc "note_block_size" d = Some (VInt total) ->
  assoc "_MAX_NOTE_BLOCK_SIZE" d = Some (VInt limit) ->
  assoc "_note_block" d = Some (VList members) ->
  total + getsizeof (VObj c nd) <= limit ->
  NoteBlock._add_note_to_block getsizeof (VObj c nd) d
  = (Raise (TypeError "object is not iterable"), d).
Proof.
  intros Ht Hl Hm H. add_note_steps. rewrite Ht, Hl.
  cbn [py_add_int py_int_le].
  destruct (Z.leb_spec (total + getsizeof (VObj c nd)) limit); [|lia].
  add_note_steps. rewrite Hm. reflexivity.
Qed.

Lemma fitting_note_is_not_appended_witness :
  NoteBlock._add_note_to_block (fun _ => 48) (note_of "a" "b" "")
                               (block_with_total 0 [])
  = (Raise (TypeError "object is not iterable"), block_with_total 0 []).
Proof.
  apply (fitting_note_is_not_appended
           (fun _ => 48) (block_with_total 0 []) 0 30720 []);
    solve [reflexivity | lia].
Defined.

(** No sequence of adds gets anywhere: a non-empty list of notes stops at
    its first element and leaves the block unchanged. *)
Lemma add_notes_fails (getsizeof : val -> Z) (d : attrs)
      (c : cls) (nd : attrs) (rest : list val) :
  exists e,
    NoteBlock.add_notes_to_block getsizeof (VList (VObj c nd :: rest)) d
    = (Raise e, d).
Proof.
  destruct (add_note_fails getsizeof d c nd) as (e & He & _).
  exists e. cbn [NoteBlock.add_notes_to_block NoteBlock.add_each].
  unfold bind. now rewrite He.
Qed.

(** ** NoteCompiler *)

Lemma NoteCompiler_new_fails (config : val) :
  NoteCompiler.new config =
  if is_dict config then Raise (AttributeError "_tag_char")
  else Raise (AssertionError "Config is not a dict.").
Proof.
  unfold NoteCompiler.new, instantiate, NoteCompiler.__init__, bind, lift.
  rewrite NoteParser_new_fails. now destruct (is_dict config).
Qed.

(** C4, as the claim words it, fails.  The limit of a block is 30720;
    under a size function that counts the characters of a note,
    [long_note] is over the limit and [plain_note] is under it.  Asking
    for the oversized note to be ingested does not end in
    [NoteTooLarge], and the ordinary note is not ingested either: this
    holds for a compiler requested from the constructor and for an
    object of the class that holds a parser, a writer and an empty
    block. *)
Lemma ingest_counterexample :
  getattr (VObj Cls_NoteBlock empty_block) "_MAX_NOTE_BLOCK_SIZE"
    = Ok (VInt 30720)
  /\ 30720 < text_size long_note
  /\ text_size plain_note <= 30720
  /\ ~ ((exists msg,
           construct_and_ingest (VDict []) long_note
           = Raise (Raised "NoteTooLarge" msg))
        /\ (exists v, construct_and_ingest (VDict []) plain_note = Ok v))
  /\ ~ ((exists msg,
           call_method sample_compiler "ingest" [long_note]
           = Raise (Raised "NoteTooLarge" msg))
        /\ (exists v, call_method sample_compiler "ingest" [plain_note] = Ok v))
  /\ construct_and_ingest (VDict []) long_note
     = Raise (AttributeError "_tag_char")
  /\ call_method sample_compiler "ingest" [long_note]
     = Raise (AttributeError "ingest")
  /\ call_method sample_compiler "ingest" [plain_note]
     = Raise (AttributeError "ingest").
Proof.
  split; [reflexivity|].
  split; [vm_compute; reflexivity|].
  split; [vm_compute; discriminate|].
  split; [intros [_ [v H]]; vm_compute in H; discriminate|].
  split; [intros [_ [v H]]; vm_compute in H; discriminate|].
  repeat split.
Qed.

Lemma construct_and_ingest_raises (config note : val) :
  construct_and_ingest config note =
  if is_dict config then Raise (AttributeError "_tag_char")
  else Raise (AssertionError "Config is not a dict.").
Proof.
  unfold construct_and_ingest. rewrite NoteCompiler_new_fails.
  now destruct (is_dict config).
Qed.

(** C4, amended.  The module has no ingest operation.  For every
    configuration and every note, whatever its size,
    [NoteCompiler(config).ingest(note)] returns no result and raises no
    exception class of the module; on every object of class
    [NoteCompiler] that was not given an [ingest] attribute by hand, the
    call raises [AttributeError]; and [NoteTooLarge] is not a name of the
    module, so that no statement could raise it. *)
Theorem ingest_is_not_available (config note : val) (d : attrs) :
  assoc "ingest" d = None ->
  (exists e,
      construct_and_ingest config note = Raise e
      /\ forall c m, e <> Raised c m)
  /\ call_method (VObj Cls_NoteCompiler d) "ingest" [note]
     = Raise (AttributeError "ingest")
  /\ (forall msg,
        @raise_global val "NoteTooLarge" msg = Raise (NameError "NoteTooLarge")).
Proof.
  intros H. split; [|split].
  - rewrite construct_and_ingest_raises.
    destruct (is_dict config); eexists; split; try reflexivity; discriminate.
  - unfold call_method, getattr. cbn. now rewrite H.
  - reflexivity.
Qed.

Lemma ingest_is_not_available_witness :
  (exists e,
      construct_and_ingest (VDict [("tag_char", VStr "#")]) long_note = Raise e
      /\ forall c m, e <> Raised c m)
  /\ call_method sample_compiler "ingest" [long_note]
     = Raise (AttributeError "ingest")
  /\ (forall msg,
        @raise_global val "NoteTooLarge" msg = Raise (NameError "NoteTooLarge")).
Proof.
  apply (ingest_is_not_available
           (VDict [("tag_char", VStr "#")]) long_note
           [("_note_parser", hash_parser);
            ("_note_writer", VObj Cls_NoteWriter [("_annotate", VBool false)]);
            ("_note_block", VObj Cls_NoteBlock empty_block)]).
  reflexivity.
Defined.

(** ** The pattern language *)

Example hash_regex_at_start :
  Re.rmatch hash_regex "#work #urgent" = Some (Re.MatchObj 5 [(1%nat, "work")]).
Proof. reflexivity. Qed.

Example hash_regex_mid_text :
  Re.rmatch hash_regex "Meeting #work #urgent" = None.
Proof. reflexivity. Qed.

(** In the default pattern [/s] is a slash followed by an s. *)
Example hash_regex_slash_s :
  Re.rmatch hash_regex "/s#a/d" = Some (Re.MatchObj 6 [(1%nat, "a/d")]).
Proof. reflexivity. Qed.

Example compile_rejects_unbalanced : Re.compile "(a" = None.
Proof. reflexivity. Qed.

(** * Further properties of the module *)

(** ** Dictionaries *)

Lemma assoc_update_same {A : Type} (k : string) (v : A) (d : list (string * A)) :
  assoc k (update k v d) = Some v.
Proof.
  induction d as [|[k' v'] d IH]; simpl.
  - now rewrite String.eqb_refl.
  - destruct (String.eqb k k') eqn:E; simpl.
    + now rewrite String.eqb_refl.
    + now rewrite E.
Qed.

Lemma assoc_update_other {A : Type} (k k0 : string) (v : A)
      (d : list (string * A)) :
  String.eqb k0 k = false ->
  assoc k0 (update k v d) = assoc k0 d.
Proof.
  intros H. induction d as [|[k' v'] d IH]; simpl.
  - now rewrite H.
  - destruct (String.eqb k k') eqn:E; simpl.
    + apply String.eqb_eq in E. subst k'. now rewrite H.
    + now rewrite IH.
Qed.

(** ** Note: what is stored is what was passed *)

(** X1.  A note that is constructed stores its three arguments unchanged
    (the defaulting expression never alters a namespace that passed the
    assertion), and [__repr__] gives them back in the order header, body,
    namespace. *)
Theorem Note_repr_round_trip (header body namespace o : val) :
  Note.new header body (Some namespace) = Ok o ->
  o = VObj Cls_Note [("header", header); ("body", body);
                     ("namespace", namespace)]
  /\ Note.__repr__ o = Ok (VList [header; body; namespace]).
Proof.
  intros H.
  destruct (Note_new_accepts _ _ _ _ H) as (h & b & n & -> & -> & -> & ->).
  split; reflexivity.
Qed.

Lemma Note_repr_round_trip_witness :
  note_of "title" "text" "" =
    VObj Cls_Note [("header", VStr "title"); ("body", VStr "text");
                   ("namespace", VStr "")]
  /\ Note.__repr__ (note_of "title" "text" "") =
     Ok (VList [VStr "title"; VStr "text"; VStr ""]).
Proof.
  apply (Note_repr_round_trip (VStr "title") (VStr "text") (VStr "")).
  reflexivity.
Defined.

(** ** TaggedNote *)

Lemma TaggedNote_new_inv (header body namespace header_tags body_tags o : val) :
  TaggedNote.new header body namespace header_tags body_tags = Ok o ->
  exists h b n hts bts,
    header = VStr h /\ body = VStr b /\ namespace = VStr n
    /\ header_tags = VList (map VStr hts)
    /\ body_tags = VList (map VStr bts)
    /\ o = VObj Cls_TaggedNote
               [("header", VStr h); ("body", VStr b); ("namespace", VStr n);
                ("header_tags", VList (map VStr hts));
                ("body_tags", VList (map VStr bts))].
Proof.
  intros H.
  destruct (is_str header && is_str body && is_str namespace
            && str_list header_tags && str_list body_tags) eqn:E.
  - repeat (apply andb_true_iff in E as [E ?]).
    destruct (is_str_inv _ E) as [h ->].
    destruct (is_str_inv body) as [b ->]; [assumption|].
    destruct (is_str_inv namespace) as [n ->]; [assumption|].
    destruct (str_list_inv header_tags) as [hts ->]; [assumption|].
    destruct (str_list_inv body_tags) as [bts ->]; [assumption|].
    rewrite TaggedNote_new_strings in H. injection H as <-.
    exists h, b, n, hts, bts. repeat split.
  - destruct (TaggedNote_new_rejects _ _ _ _ _ E) as [msg Hmsg].
    congruence.
Qed.

(** X2.  On a tagged note that is constructed, [all_tags] is the header
    tags followed by the body tags, each list in the order it was given. *)
Theorem all_tags_is_header_then_body
        (header body namespace o : val) (hts bts : list val) :
  TaggedNote.new header body namespace (VList hts) (VList bts) = Ok o ->
  TaggedNote.all_tags o = Ok (VList (hts ++ bts)).
Proof.
  intros H.
  destruct (TaggedNote_new_inv _ _ _ _ _ _ H)
    as (h & b & n & hs & bs & _ & _ & _ & Hh & Hb & ->).
  injection Hh as ->. injection Hb as ->. reflexivity.
Qed.

Lemma all_tags_is_header_then_body_witness :
  TaggedNote.all_tags
    (VObj Cls_TaggedNote
          [("header", VStr "h"); ("body", VStr "b"); ("namespace", VStr "");
           ("header_tags", VList [VStr "work"; VStr "urgent"]);
           ("body_tags", VList [VStr "todo"])])
  = Ok (VList [VStr "work"; VStr "urgent"; VStr "todo"]).
Proof.
  apply (all_tags_is_header_then_body
           (VStr "h") (VStr "b") (VStr "")
           (VObj Cls_TaggedNote
                 [("header", VStr "h"); ("body", VStr "b");
                  ("namespace", VStr "");
                  ("header_tags", VList [VStr "work"; VStr "urgent"]);
                  ("body_tags", VList [VStr "todo"])])
           [VStr "work"; VStr "urgent"] [VStr "todo"]).
  reflexivity.
Defined.

(** X3.  A tagged note is a [Note], it keeps header, body and namespace
    as they were passed, and the [__repr__] it inherits returns those
    three fields only: the tags are not part of it. *)
Theorem TaggedNote_repr_omits_tags
        (header body namespace header_tags body_tags o : val) :
  TaggedNote.new header body namespace header_tags body_tags = Ok o ->
  is_Note o = true
  /\ call_method o "__repr__" [] = Ok (VList [header; body; namespace]).
Proof.
  intros H.
  destruct (TaggedNote_new_inv _ _ _ _ _ _ H)
    as (h & b & n & hs & bs & -> & -> & -> & _ & _ & ->).
  split; reflexivity.
Qed.

Lemma TaggedNote_repr_omits_tags_witness :
  is_Note (VObj Cls_TaggedNote
                [("header", VStr "h"); ("body", VStr "b");
                 ("namespace", VStr "ns");
                 ("header_tags", VList [VStr "work"]);
                 ("body_tags", VList [])]) = true
  /\ call_method (VObj Cls_TaggedNote
                       [("header", VStr "h"); ("body", VStr "b");
                        ("namespace", VStr "ns");
                        ("header_tags", VList [VStr "work"]);
                        ("body_tags", VList [])]) "__repr__" []
     = Ok (VList [VStr "h"; VStr "b"; VStr "ns"]).
Proof.
  apply (TaggedNote_repr_omits_tags
           (VStr "h") (VStr "b") (VStr "ns") (VList [VStr "work"]) (VList [])).
  reflexivity.
Defined.

(** ** Construction of parser, writer and compiler *)

(** X4.  No parser is ever constructed: a configuration that is not a
    dictionary fails the assertion, and a dictionary, whatever it holds,
    ends in [AttributeError] because [__init__] reads [self._tag_char],
    which it never assigned. *)
Theorem NoteParser_is_never_constructed (config : val) :
  (forall o, NoteParser.new config <> Ok o)
  /\ NoteParser.new config =
     if is_dict config then Raise (AttributeError "_tag_char")
     else Raise (AssertionError "Config is not a dict.").
Proof.
  split; [intros o|]; rewrite NoteParser_new_fails;
    destruct (is_dict config); congruence.
Qed.

(** X5.  A writer is constructed from every dictionary: its flag
    [_annotate] is the value under "annotate" when that value is true,
    and [False] when the key is missing or its value is false ([None],
    0, the empty string, an empty list).  Anything but a dictionary
    fails the assertion. *)
Theorem NoteWriter_new_annotate (config : val) :
  NoteWriter.new config =
  match config with
  | VDict entries =>
      Ok (VObj Cls_NoteWriter
               [("_annotate",
                 match assoc "annotate" entries with
                 | Some v => if truthy v then v else VBool false
                 | None => VBool false
                 end)])
  | _ => Raise (AssertionError "Config is not a dict.")
  end.
Proof.
  destruct config; try reflexivity.
  unfold NoteWriter.new, instantiate, NoteWriter.__init__, bind, py_assert.
  cbn [is_dict ret lift dict_get].
  destruct (assoc "annotate" entries); reflexivity.
Qed.

(** X6.  On a writer as its constructor leaves it, [_get_tags_dict]
    raises [AttributeError] for every note: it calls
    [self._parse_all_tags], which the class does not define. *)
Theorem get_tags_dict_raises (config w note : val) :
  NoteWriter.new config = Ok w ->
  NoteWriter._get_tags_dict w note = Raise (AttributeError "_parse_all_tags").
Proof.
  rewrite NoteWriter_new_annotate.
  destruct config; try discriminate.
  intros H. injection H as <-. reflexivity.
Qed.

Lemma get_tags_dict_raises_witness :
  NoteWriter._get_tags_dict
    (VObj Cls_NoteWriter [("_annotate", VBool true)]) meeting_note
  = Raise (AttributeError "_parse_all_tags").
Proof.
  apply (get_tags_dict_raises (VDict [("annotate", VBool true)])).
  reflexivity.
Defined.


(** ** Tagged notes from a parser *)

(** X8.  [parse_tagged_note] never yields a tagged note, also when the
    note does carry tags: [parse_tags] hands over match objects or
    [None], and the first of them fails the assertion that the header
    tags are a list. *)
Theorem parse_tagged_note_never_succeeds
        (d : attrs) (r : Re.regex) (h b n : string) :
  assoc "_regex" d = Some (VRegex r) ->
  assoc "parse_tags" d = None ->
  (forall o,
      TaggedNote.parse_tagged_note (note_of h b n) (VObj Cls_NoteParser d)
      <> Ok o)
  /\ TaggedNote.parse_tagged_note (note_of h b n) (VObj Cls_NoteParser d)
     = Raise (AssertionError "Header tags is not a list.").
Proof.
  intros Hr Hp.
  rewrite (parse_tagged_note_fails d r h b n Hr Hp).
  split; [intros o|]; congruence.
Qed.

Lemma parse_tagged_note_never_succeeds_witness :
  (forall o,
      TaggedNote.parse_tagged_note (note_of "#work today" "" "") hash_parser
      <> Ok o)
  /\ TaggedNote.parse_tagged_note (note_of "#work today" "" "") hash_parser
     = Raise (AssertionError "Header tags is not a list.").
Proof.
  apply (parse_tagged_note_never_succeeds
           [("_default_pattern", VStr NoteParser.default_pattern);
            ("_default_tag_char", VStr "#");
            ("_regex", VRegex hash_regex)]
           hash_regex "#work today" "" "");
    reflexivity.
Defined.

Lemma prefix_cons (a b : ascii) (s t : string) :
  String.prefix (String a s) (String b t) = Ascii.eqb a b && String.prefix s t.
Proof.
  simpl. destruct (ascii_dec a b) as [->|N].
  - now rewrite Ascii.eqb_refl.
  - destruct (Ascii.eqb_spec a b); [contradiction|reflexivity].
Qed.

Lemma prefix_empty (t : string) : String.prefix "" t = true.
Proof. now destruct t. Qed.

Lemma hash_regex_needs_prefix (text : string) :
  String.prefix "#" text = false ->
  String.prefix "/s#" text = false ->
  Re.rmatch hash_regex text = None.
Proof.
  intros H1 H2. unfold Re.rmatch, hash_regex.
  destruct text as [|c1 t1]; [reflexivity|].
  rewrite prefix_cons, prefix_empty, andb_true_r in H1.
  rewrite prefix_cons in H2.
  cbn [list_ascii_of_string Re.run Nat.eqb].
  rewrite (Ascii.eqb_sym c1 "#"), H1.
  destruct (Ascii.eqb_spec c1 "/") as [->|N2]; [|reflexivity].
  cbn [Ascii.eqb Bool.eqb andb] in H2.
  destruct t1 as [|c2 t2]; [reflexivity|].
  rewrite prefix_cons in H2. cbn [list_ascii_of_string].
  destruct (Ascii.eqb_spec c2 "s") as [->|N3]; [|reflexivity].
  cbn [Ascii.eqb Bool.eqb andb] in H2.
  destruct t2 as [|c3 t3]; [reflexivity|].
  rewrite prefix_cons, prefix_empty, andb_true_r in H2.
  cbn [list_ascii_of_string].
  now rewrite (Ascii.eqb_sym c3 "#"), H2.
Qed.

(** X9.  With the default pattern a tag is found only at the very start
    of a text: a header that begins neither with "#" nor with "/s#" has
    no match, so a tag that follows a space is never seen. *)
Theorem default_pattern_matches_at_start_only (h b n : string) :
  String.prefix "#" h = false ->
  String.prefix "/s#" h = false ->
  NoteParser.parse_tags hash_parser (note_of h b n) =
  Ok (VTuple [VNone; match_val (Re.rmatch hash_regex b)]).
Proof.
  intros H1 H2. unfold hash_parser.
  rewrite (parse_tags_eq _ hash_regex h b n) by reflexivity.
  now rewrite (hash_regex_needs_prefix h H1 H2).
Qed.

Lemma default_pattern_matches_at_start_only_witness :
  NoteParser.parse_tags hash_parser (note_of "call #bob" "#todo" "") =
  Ok (VTuple [VNone; VMatch (Re.MatchObj 5 [(1%nat, "todo")])]).
Proof.
  apply (default_pattern_matches_at_start_only "call #bob" "#todo" "");
    reflexivity.
Defined.

(** ** NoteBlock: what an add can and cannot do *)

Lemma py_iadd_error (a b : val) (e : exn) :
  py_iadd a b = Raise e -> interpreter_error e = true.
Proof.
  destruct a, b; simpl; intros H; try discriminate;
    try (injection H as <-; reflexivity).
Qed.

(** An add that worked once works again on its own result. *)
Lemma py_iadd_again (a b a' : val) :
  py_iadd a b = Ok a' -> exists a'', py_iadd a' b = Ok a''.
Proof.
  destruct a, b; simpl; intros H; try discriminate;
    injection H as <-; eexists; reflexivity.
Qed.

(** The two ways an add can end: an interpreter error with the block
    untouched, or, when every lookup and the comparison go through, one
    assignment to [_note_block]. *)
Lemma add_note_outcome (getsizeof : val -> Z) (note : val) (d : attrs) :
  (exists e,
      NoteBlock._add_note_to_block getsizeof note d = (Raise e, d)
      /\ interpreter_error e = true)
  \/ (exists size total limit block block',
         assoc "note_block_size" d = Some size
         /\ py_add_int size (getsizeof note) = Ok total
         /\ assoc "_MAX_NOTE_BLOCK_SIZE" d = Some limit
         /\ py_int_le total limit = Ok true
         /\ assoc "_note_block" d = Some block
         /\ py_iadd block note = Ok block'
         /\ NoteBlock._add_note_to_block getsizeof note d =
            (Ok tt, update "_note_block" block' d)).
Proof.
  add_note_steps.
  destruct (assoc "note_block_size" d) as [size|];
    [|left; eexists; split; reflexivity].
  destruct (py_add_int size (getsizeof note)) as [total|e] eqn:Ha.
  2:{ left. exists e. split; [reflexivity|].
      destruct size; simpl in Ha; try discriminate;
        injection Ha as <-; reflexivity. }
  destruct (assoc "_MAX_NOTE_BLOCK_SIZE" d) as [limit|];
    [|left; eexists; split; reflexivity].
  destruct (py_int_le total limit) as [fits|e] eqn:Hl.
  2:{ left. exists e. split; [reflexivity|].
      destruct limit; simpl in Hl; try discriminate;
        injection Hl as <-; reflexivity. }
  destruct fits; [|left; eexists; split; reflexivity].
  add_note_steps.
  destruct (assoc "_note_block" d) as [block|];
    [|left; eexists; split; reflexivity].
  destruct (py_iadd block note) as [block'|e] eqn:Hi.
  - right. exists size, total, limit, block, block'. repeat split; assumption.
  - left. exists e. split; [reflexivity|]. exact (py_iadd_error _ _ _ Hi).
Qed.

(** X10.  An add is all or nothing for every argument and every block:
    when it raises, the block is exactly what it was, and what it raises
    is an error of the interpreter, never an exception class of the
    module. *)
Theorem failed_add_changes_nothing
        (getsizeof : val -> Z) (note : val) (d d' : attrs) (e : exn) :
  NoteBlock._add_note_to_block getsizeof note d = (Raise e, d') ->
  d' = d /\ interpreter_error e = true.
Proof.
  intros H.
  destruct (add_note_outcome getsizeof note d)
    as [(e0 & He & Hi)|(s & t & l & b & b' & _ & _ & _ & _ & _ & _ & Hok)].
  - rewrite He in H. injection H as <- <-. now split.
  - rewrite Hok in H. discriminate.
Qed.

Lemma failed_add_changes_nothing_witness :
  block_with_total 30000 [VStr "x"] = block_with_total 30000 [VStr "x"]
  /\ interpreter_error (NameError "NoteBlockException") = true.
Proof.
  apply (failed_add_changes_nothing
           (fun _ => 1000) (VList [VStr "y"])
           (block_with_total 30000 [VStr "x"])
           (block_with_total 30000 [VStr "x"])
           (NameError "NoteBlockException")).
  reflexivity.
Defined.

(** X11.  An add assigns to [_note_block] and to nothing else: whatever
    its outcome, every other attribute of the block, the running total
    [note_block_size] and the limit included, is what it was.  The total
    is therefore never updated by the code. *)
Theorem add_only_assigns_note_block
        (getsizeof : val -> Z) (note : val) (d d' : attrs)
        (r : result unit) (name : string) :
  NoteBlock._add_note_to_block getsizeof note d = (r, d') ->
  String.eqb name "_note_block" = false ->
  assoc name d' = assoc name d.
Proof.
  intros H Hn.
  destruct (add_note_outcome getsizeof note d)
    as [(e0 & He & _)|(s & t & l & b & b' & _ & _ & _ & _ & _ & _ & Hok)].
  - rewrite He in H. now injection H as <- <-.
  - rewrite Hok in H. injection H as <- <-.
    now apply assoc_update_other.
Qed.

Lemma add_only_assigns_note_block_witness :
  assoc "note_block_size"
        (update "_note_block" (VList [VStr "x"; VStr "y"])
                (block_with_total 0 [VStr "x"]))
  = assoc "note_block_size" (block_with_total 0 [VStr "x"]).
Proof.
  apply (add_only_assigns_note_block
           (fun _ => 64) (VList [VStr "y"]) (block_with_total 0 [VStr "x"])
           _ (Ok tt) "note_block_size");
    reflexivity.
Defined.

Lemma add_note_success (getsizeof : val -> Z) (note : val) (d : attrs)
      (size limit block block' : val) (total : Z) :
  assoc "note_block_size" d = Some size ->
  py_add_int size (getsizeof note) = Ok total ->
  assoc "_MAX_NOTE_BLOCK_SIZE" d = Some limit ->
  py_int_le total limit = Ok true ->
  assoc "_note_block" d = Some block ->
  py_iadd block note = Ok block' ->
  NoteBlock._add_note_to_block getsizeof note d =
  (Ok tt, update "_note_block" block' d).
Proof.
  intros Hs Ha Hl Hle Hb Hi. add_note_steps.
  rewrite Hs, Ha, Hl, Hle. add_note_steps. now rewrite Hb, Hi.
Qed.

(** X12.  The limit does not bound what a block accumulates: an add that
    succeeds once succeeds again on the block it produced, because the
    total it compares with the limit has not moved. *)
Theorem successful_add_can_be_repeated
        (getsizeof : val -> Z) (note : val) (d d' : attrs) :
  NoteBlock._add_note_to_block getsizeof note d = (Ok tt, d') ->
  exists d'', NoteBlock._add_note_to_block getsizeof note d' = (Ok tt, d'').
Proof.
  intros H.
  destruct (add_note_outcome getsizeof note d)
    as [(e0 & He & _)|(s & t & l & b & b' & Hs & Ha & Hl & Hle & Hb & Hi & Hok)].
  - rewrite He in H. discriminate.
  - rewrite Hok in H. injection H as <-.
    destruct (py_iadd_again _ _ _ Hi) as [b'' Hi'].
    exists (update "_note_block" b'' (update "_note_block" b' d)).
    apply (add_note_success getsizeof note _ s l b' b'' t); try assumption.
    + now rewrite assoc_update_other.
    + now rewrite assoc_update_other.
    + apply assoc_update_same.
Qed.

Lemma successful_add_can_be_repeated_witness :
  exists d'',
    NoteBlock._add_note_to_block
      (fun _ => 30000) (VList [VStr "y"])
      (update "_note_block" (VList [VStr "y"]) (block_with_total 0 []))
    = (Ok tt, d'').
Proof.
  apply (successful_add_can_be_repeated
           (fun _ => 30000) (VList [VStr "y"]) (block_with_total 0 [])).
  reflexivity.
Defined.

(** X13.  When an add does succeed, the argument was iterable and the
    block's list is extended by the elements of the argument, in order,
    not by the argument as one element. *)
Theorem successful_add_splices_elements
        (getsizeof : val -> Z) (note : val) (d d' : attrs)
        (members : list val) :
  assoc "_note_block" d = Some (VList members) ->
  NoteBlock._add_note_to_block getsizeof note d = (Ok tt, d') ->
  exists xs,
    py_iter note = Ok xs
    /\ d' = update "_note_block" (VList (members ++ xs)) d.
Proof.
  intros Hm H.
  destruct (add_note_outcome getsizeof note d)
    as [(e0 & He & _)|(s & t & l & b & b' & _ & _ & _ & _ & Hb & Hi & Hok)].
  - rewrite He in H. discriminate.
  - rewrite Hok in H. injection H as <-.
    rewrite Hm in Hb. injection Hb as <-. cbn [py_iadd] in Hi.
    destruct (py_iter note) as [xs|e]; [|discriminate].
    injection Hi as <-. now exists xs.
Qed.

Lemma successful_add_splices_elements_witness :
  exists xs,
    py_iter (VList [VStr "y"; VStr "z"]) = Ok xs
    /\ update "_note_block" (VList [VStr "x"; VStr "y"; VStr "z"])
              (block_with_total 0 [VStr "x"])
       = update "_note_block" (VList ([VStr "x"] ++ xs))
                (block_with_total 0 [VStr "x"]).
Proof.
  apply (successful_add_splices_elements
           (fun _ => 64) (VList [VStr "y"; VStr "z"])
           (block_with_total 0 [VStr "x"]) _ [VStr "x"]);
    reflexivity.
Defined.

(** ** NoteBlock: adding several notes *)

(** X14.  On a new block [add_notes_to_block] succeeds for the empty
    list only.  A non-empty list stops at its first element with
    [AttributeError]; an argument that is not a list, a single note
    included, ends in [UnboundLocalError], because the [elif] tests it
    against the loop variable.  In every case the block stays empty. *)
Theorem add_notes_on_new_block (getsizeof : val -> Z) (notes : val) :
  NoteBlock.add_notes_to_block getsizeof notes empty_block =
  (match notes with
   | VList [] => Ok tt
   | VList (_ :: _) => Raise (AttributeError "note_block_size")
   | _ => Raise (UnboundLocalError "note")
   end, empty_block).
Proof.
  destruct notes as [| | | |items| | | | | | |]; try reflexivity.
  destruct items; reflexivity.
Qed.




(** Iterating a string goes by code point: the two bytes of the UTF-8
    encoding of e-acute are one element. *)
Example py_iter_code_point :
  py_iter (VStr (String "195" (String "169" "!")))
  = Ok [VStr (String "195" (String "169" "")); VStr "!"].
Proof. reflexivity. Qed.

(** Adding the one-character string e-acute to a block with a total
    stored by hand extends the list by one element. *)
Example add_str_by_code_point :
  NoteBlock._add_note_to_block
    (fun _ => 64) (VStr (String "195" (String "169" "")))
    (block_with_total 0 [VStr "x"])
  = (Ok tt,
     update "_note_block"
            (VList [VStr "x"; VStr (String "195" (String "169" ""))])
            (block_with_total 0 [VStr "x"])).
Proof. reflexivity. Qed.
